(** * gemini-stream: the generation endpoint and the client form

    A shallow embedding of
    - [src/app/api/generate/route.ts] ([POST]), and
    - the client page component ([Home]: [handleSubmit],
      [handlePromptChange], [handleTypeChange]).

    JavaScript values are modelled by [jsval].  Strings are Rocq strings
    (8-bit code units); a number is its shortest decimal form
    [sig * 10^exp], the digits JavaScript prints for it.  Every awaited call that
    reaches outside the program (the request body parser, the generative
    provider, [fetch]) is an oracle given as an argument, and the model
    records which calls were made. *)

From Stdlib Require Import String Ascii ZArith List Bool Lia.
Import ListNotations.
Open Scope string_scope.
Set Warnings "-register-all".

(** ** JavaScript values *)

Inductive jsval : Type :=
| JUndefined
| JNull
| JBool (b : bool)
| JNum (sig exp : Z)
| JStr (s : string)
| JArr (xs : list jsval)
| JObj (fields : list (string * jsval)).

(** A thrown value: an [Error] instance (with its [message]) or any other
    value. *)
Inductive exn : Type :=
| ErrObj (message : string)
| NonErr (v : jsval).

(** JavaScript truthiness ([!v] is [negb (truthy v)]). *)
Definition truthy (v : jsval) : bool :=
  match v with
  | JUndefined | JNull => false
  | JBool b => b
  | JNum sig _ => negb (Z.eqb sig 0)
  | JStr s => negb (String.eqb s "")
  | JArr _ | JObj _ => true
  end.

(** Own property of a parsed object; [JSON.parse] keeps the last of
    duplicated keys. *)
Fixpoint obj_lookup (fields : list (string * jsval)) (k : string) : option jsval :=
  match fields with
  | [] => None
  | (k', v) :: rest =>
      match obj_lookup rest k with
      | Some w => Some w
      | None => if String.eqb k k' then Some v else None
      end
  end.

(** ** A small writer + exception monad

    [M A] carries the list of values that were passed to the external
    oracle and either a thrown value or a result. *)
Definition M (C A : Type) : Type := (list C * (exn + A))%type.

Definition ret {C A} (a : A) : M C A := ([], inr a).
Definition throw {C A} (e : exn) : M C A := ([], inl e).
Definition bind {C A B} (m : M C A) (f : A -> M C B) : M C B :=
  match m with
  | (l, inl e) => (l, inl e)
  | (l, inr a) => let '(l', r) := f a in (app l l', r)
  end.

Notation "x <- m ;; k" := (bind m (fun x => k))
  (at level 61, m at next level, right associativity).

(** [v.k] on a value: [TypeError] on [null] / [undefined]; the parsed
    shapes other than objects have no own property of the names read here. *)
Definition get_prop {C} (v : jsval) (k : string) : M C jsval :=
  match v with
  | JUndefined =>
      throw (ErrObj ("Cannot read properties of undefined (reading '" ++ k ++ "')"))
  | JNull =>
      throw (ErrObj ("Cannot read properties of null (reading '" ++ k ++ "')"))
  | JObj fs =>
      match obj_lookup fs k with Some w => ret w | None => ret JUndefined end
  | _ => ret JUndefined
  end.

(** ** The endpoint: [POST] in route.ts *)

(** Outcome of [await req.json()]: a parsed value, or the [SyntaxError]
    (an [Error]) with its message. *)
Inductive body_json : Type :=
| Json (v : jsval)
| NotJson (message : string).

Record Request := { req_body : body_json }.

(** Outcome of [model.generateContent(prompt)] followed by
    [result.response.text()]. *)
Inductive provider_result : Type :=
| PText (t : string)
| PThrow (e : exn).

Definition Provider := jsval -> provider_result.

(** [process.env.GEMINI_API_KEY] *)
Record Env := { GEMINI_API_KEY : option string }.

Definition key_present (env : Env) : bool :=
  match GEMINI_API_KEY env with
  | Some k => negb (String.eqb k "")
  | None => false
  end.

Record Response := { status : Z; body : jsval }.

(** [NextResponse.json(body, { status })]; status defaults to 200. *)
Definition json_response (b : jsval) (st : Z) : Response :=
  {| status := st; body := b |}.

Definition err_body (msg : string) : jsval := JObj [("error", JStr msg)].

(** [await req.json()] *)
Definition req_json (req : Request) : M jsval jsval :=
  match req_body req with
  | Json v => ret v
  | NotJson m => throw (ErrObj m)
  end.

(** [const { prompt, type } = v]: destructuring [null] throws. *)
Definition destructure (v : jsval) : M jsval (jsval * jsval) :=
  match v with
  | JNull =>
      throw (ErrObj "Cannot destructure property 'prompt' of '(intermediate value)' as it is null.")
  | JUndefined =>
      throw (ErrObj "Cannot destructure property 'prompt' of '(intermediate value)' as it is undefined.")
  | _ =>
      p <- get_prop v "prompt" ;;
      t <- get_prop v "type" ;;
      ret (p, t)
  end.

(** [===] on the values compared here (a string literal against a value). *)
Definition strict_eq_str (v : jsval) (s : string) : bool :=
  match v with JStr s' => String.eqb s' s | _ => false end.

(** [["text", "image"].includes(type)] *)
Definition includes_str (xs : list string) (v : jsval) : bool :=
  existsb (strict_eq_str v) xs.

(** The awaited provider call; the prompt is recorded. *)
Definition call_provider (prov : Provider) (prompt : jsval) : M jsval string :=
  ([prompt], match prov prompt with PText t => inr t | PThrow e => inl e end).

Definition config_error : Response :=
  json_response (err_body "Server configuration error: Missing API key") 500.
Definition validation_error : Response :=
  json_response (err_body "Prompt and valid type (text or image) are required") 400.
Definition image_unsupported : Response :=
  json_response (err_body "Image generation not supported in this version") 501.
Definition text_response (t : string) : Response :=
  json_response (JObj [("type", JStr "text"); ("content", JStr t)]) 200.

(** The body of the [try] block. *)
Definition POST_try (env : Env) (prov : Provider) (req : Request) : M jsval Response :=
  if negb (key_present env) then ret config_error
  else
    v <- req_json req ;;
    pt <- destructure v ;;
    let '(prompt, type) := pt in
    if negb (truthy prompt) || negb (truthy type)
       || negb (includes_str ["text"; "image"] type)
    then ret validation_error
    else
      if strict_eq_str type "text" then
        text <- call_provider prov prompt ;;
        ret (text_response text)
      else ret image_unsupported.

(** [error instanceof Error ? error.message : "Internal server error"] *)
Definition catch_message (e : exn) : string :=
  match e with
  | ErrObj m => m
  | NonErr _ => "Internal server error"
  end.

(** [POST]: the [catch] turns every thrown value into a 500 response.  The
    result pairs the prompts passed to the provider with the response. *)
Definition POST (env : Env) (prov : Provider) (req : Request) : list jsval * Response :=
  let '(calls, r) := POST_try env prov req in
  (calls, match r with
          | inr resp => resp
          | inl e => json_response (err_body (catch_message e)) 500
          end).

(** ** The client page: [Home] *)

(** [String.prototype.trim]: the whitespace and line terminators among
    8-bit code units (TAB, LF, VT, FF, CR, SPACE, NBSP). *)
Definition is_js_space (c : ascii) : bool :=
  match N_of_ascii c with
  | 9%N | 10%N | 11%N | 12%N | 13%N | 32%N | 160%N => true
  | _ => false
  end.

Fixpoint trim_start (s : string) : string :=
  match s with
  | EmptyString => EmptyString
  | String c rest => if is_js_space c then trim_start rest else s
  end.

Definition str_rev (s : string) : string :=
  string_of_list_ascii (rev (list_ascii_of_string s)).

Definition trim (s : string) : string := str_rev (trim_start (str_rev (trim_start s))).

(** Decimal rendering of non-negative integers. *)
Definition digit_char (d : N) : ascii := ascii_of_N (48 + d).

Fixpoint N_digits (fuel : nat) (n : N) (acc : string) : string :=
  match fuel with
  | O => acc
  | S f =>
      if N.eqb n 0 then acc
      else N_digits f (N.div n 10) (String (digit_char (N.modulo n 10)) acc)
  end.

Definition N_to_string (n : N) : string :=
  if N.eqb n 0 then "0" else N_digits (S (N.to_nat (N.size n))) n "".

Definition Z_to_string (z : Z) : string :=
  if Z.ltb z 0 then "-" ++ N_to_string (Z.to_N (- z)) else N_to_string (Z.to_N z).

Fixpoint join_comma (xs : list string) : string :=
  match xs with
  | [] => ""
  | [x] => x
  | x :: rest => x ++ "," ++ join_comma rest
  end.

(** Drop the trailing zeros of a significand, raising the exponent. *)
Fixpoint strip_zeros (fuel : nat) (sig exp : Z) : Z * Z :=
  match fuel with
  | O => (sig, exp)
  | S f =>
      if Z.eqb sig 0 then (sig, exp)
      else if Z.eqb (Z.modulo sig 10) 0 then strip_zeros f (Z.div sig 10) (exp + 1)%Z
      else (sig, exp)
  end.

Definition zeros (n : nat) : string := string_of_list_ascii (repeat "0"%char n).

(** [Number::toString(x)] (radix 10) of ECMA-262 for [x = sig * 10^exp]:
    [s] has [k] digits and [x = s * 10^(n - k)]. *)
Definition number_to_string (sig exp : Z) : string :=
  if Z.eqb sig 0 then "0"
  else
    let sign := if Z.ltb sig 0 then "-" else "" in
    let '(s, e) := strip_zeros (String.length (Z_to_string sig)) (Z.abs sig) exp in
    let ds := N_to_string (Z.to_N s) in
    let k := Z.of_nat (String.length ds) in
    let n := (k + e)%Z in
    sign ++
    (if Z.leb k n && Z.leb n 21 then ds ++ zeros (Z.to_nat (n - k)%Z)
     else if Z.ltb 0 n && Z.leb n 21 then
       substring 0 (Z.to_nat n) ds ++ "." ++ substring (Z.to_nat n) (Z.to_nat (k - n)%Z) ds
     else if Z.ltb (-6)%Z n && Z.leb n 0 then "0." ++ zeros (Z.to_nat (- n)%Z) ++ ds
     else
       let e' := (n - 1)%Z in
       let es := (if Z.leb 0 e' then "+" else "-") ++ Z_to_string (Z.abs e') in
       if Z.eqb k 1 then ds ++ "e" ++ es
       else substring 0 1 ds ++ "." ++ substring 1 (Z.to_nat (k - 1)%Z) ds ++ "e" ++ es).

Definition to_primitive_error : exn := ErrObj "Cannot convert object to primitive value".

(** [String(v)], used by [new Error(v)] and by template literals.  A parsed
    object with an own [toString] key has no callable [toString] nor a
    [valueOf] giving a primitive, so the conversion throws a [TypeError];
    arrays convert through [join], whose elements convert in order. *)
Fixpoint to_string (v : jsval) : exn + string :=
  match v with
  | JUndefined => inr "undefined"
  | JNull => inr "null"
  | JBool b => inr (if b then "true" else "false")
  | JNum sig exp => inr (number_to_string sig exp)
  | JStr s => inr s
  | JArr xs =>
      let fix go (xs : list jsval) : exn + list string :=
        match xs with
        | [] => inr []
        | x :: rest =>
            match (match x with JUndefined | JNull => inr "" | _ => to_string x end) with
            | inl e => inl e
            | inr sx => match go rest with inl e => inl e | inr ss => inr (sx :: ss) end
            end
        end in
      match go xs with inl e => inl e | inr ss => inr (join_comma ss) end
  | JObj fs =>
      match obj_lookup fs "toString" with
      | Some _ => inl to_primitive_error
      | None => inr "[object Object]"
      end
  end.

Inductive GenerationType : Type := GText | GImage.

Definition GenerationType_eqb (a b : GenerationType) : bool :=
  match a, b with GText, GText | GImage, GImage => true | _, _ => false end.

Definition type_name (t : GenerationType) : string :=
  match t with GText => "text" | GImage => "image" end.

Definition GENERATION_TYPES : list GenerationType := [GText; GImage].

Record FormError := { message : string }.

(** The component's state: [prompt], [type], [result], [loading], [error]. *)
Record State := {
  prompt : string;
  type : GenerationType;
  result : option jsval;
  loading : bool;
  error : option FormError
}.

Definition initial_state : State :=
  {| prompt := ""; type := GText; result := None; loading := false; error := None |}.

Definition setPrompt (v : string) (st : State) : State :=
  {| prompt := v; type := type st; result := result st; loading := loading st; error := error st |}.
Definition setType (t : GenerationType) (st : State) : State :=
  {| prompt := prompt st; type := t; result := result st; loading := loading st; error := error st |}.
Definition setResult (r : option jsval) (st : State) : State :=
  {| prompt := prompt st; type := type st; result := r; loading := loading st; error := error st |}.
Definition setLoading (b : bool) (st : State) : State :=
  {| prompt := prompt st; type := type st; result := result st; loading := b; error := error st |}.
Definition setError (e : option FormError) (st : State) : State :=
  {| prompt := prompt st; type := type st; result := result st; loading := loading st; error := e |}.

(** [isFormValid] *)
Definition isFormValid (st : State) : bool :=
  Nat.ltb 0 (String.length (trim (prompt st)))
  && existsb (GenerationType_eqb (type st)) GENERATION_TYPES.

(** Notifications shown by [toast.error] / [toast.success]. *)
Inductive toast : Type :=
| ToastError (title description : string)
| ToastSuccess (title description : string).

(** Outcome of [await fetch('/api/generate', ...)]: a thrown value (network
    failure, the 30 s [AbortSignal.timeout]) or a response with its status
    and the outcome of reading its body as JSON. *)
Inductive fetch_result : Type :=
| FThrow (e : exn)
| FResp (status : Z) (body : body_json).

(** The posted body [JSON.stringify({ prompt, type })] as its two fields. *)
Definition FetchRequest := (string * string)%type.
Definition Fetch := FetchRequest -> fetch_result.

Definition response_ok (status : Z) : bool := Z.leb 200 status && Z.leb status 299.

Definition call_fetch (fetch : Fetch) (rq : FetchRequest) : M FetchRequest fetch_result :=
  ([rq], inr (fetch rq)).

(** [await response.json()] *)
Definition response_json (b : body_json) : M FetchRequest jsval :=
  match b with Json v => ret v | NotJson m => throw (ErrObj m) end.

(** [await response.json().catch(() => ({}))] *)
Definition response_json_or_empty (b : body_json) : M FetchRequest jsval :=
  match b with Json v => ret v | NotJson _ => ret (JObj []) end.

(** A conversion that may throw, inside [M]. *)
Definition lift {C A} (r : exn + A) : M C A := ([], r).

(** The [try] block of [handleSubmit] up to [setResult(data)]: on success
    it yields [data] and [data.type]. *)
Definition submit_try (fetch : Fetch) (p : string) (t : GenerationType)
  : M FetchRequest (jsval * jsval) :=
  r <- call_fetch fetch (p, type_name t) ;;
  match r with
  | FThrow e => throw e
  | FResp st b =>
      if negb (response_ok st) then
        errorData <- response_json_or_empty b ;;
        e <- get_prop errorData "error" ;;
        msg <- (if truthy e then lift (to_string e)
                else ret ("HTTP error! Status: " ++ Z_to_string st)) ;;
        throw (ErrObj msg)
      else
        data <- response_json b ;;
        ty <- get_prop data "type" ;;
        if negb (truthy ty) then throw (ErrObj "Invalid response from the abyss")
        else
          c <- get_prop data "content" ;;
          if negb (truthy c) then throw (ErrObj "Invalid response from the abyss")
          else ret (data, ty)
  end.

(** [err instanceof Error ? err.message : 'The abyss rejected your request.'] *)
Definition client_catch_message (e : exn) : string :=
  match e with
  | ErrObj m => m
  | NonErr _ => "The abyss rejected your request."
  end.

(** [handleSubmit]: the final state, the requests posted and the
    notifications shown.  After [setResult(data)] the rest of the [try]
    block builds the success toast's description [`Your ${data.type} ...`],
    which throws when [data.type] cannot be converted to a string; the
    [catch] then stores the error while the result stays set. *)
Definition handleSubmit (fetch : Fetch) (st : State)
  : State * list FetchRequest * list toast :=
  if negb (isFormValid st) then
    (setError (Some {| message := "A valid incantation and type are required." |}) st,
     [],
     [ToastError "Forbidden Incantation"
                 "Provide a proper prompt and select a creation type."])
  else
    let st1 := setResult None (setError None (setLoading true st)) in
    let '(reqs, r) := submit_try fetch (prompt st) (type st) in
    let '(st2, toasts) :=
      match r with
      | inr (data, ty) =>
          let st2 := setResult (Some data) st1 in
          match to_string ty with
          | inr tys =>
              (st2, [ToastSuccess "Creation Summoned"
                                  ("Your " ++ tys ++ " has emerged from the shadows.")])
          | inl e =>
              let errorMessage := client_catch_message e in
              (setError (Some {| message := errorMessage |}) st2,
               [ToastError "Ritual Failed" errorMessage])
          end
      | inl e =>
          let errorMessage := client_catch_message e in
          (setError (Some {| message := errorMessage |}) st1,
           [ToastError "Ritual Failed" errorMessage])
      end in
    (setLoading false st2, reqs, toasts).

(** [handlePromptChange] *)
Definition handlePromptChange (v : string) (st : State) : State :=
  let st1 := setPrompt v st in
  match error st with Some _ => setError None st1 | None => st1 end.

(** [handleTypeChange] *)
Definition handleTypeChange (t : GenerationType) (st : State) : State :=
  let st1 := setType t st in
  match error st with Some _ => setError None st1 | None => st1 end.

(** The value read by [v.k] when [v] is neither [null] nor [undefined]. *)
Definition prop_of (v : jsval) (k : string) : jsval :=
  match v with
  | JObj fs => match obj_lookup fs k with Some w => w | None => JUndefined end
  | _ => JUndefined
  end.

(** A request whose body is the JSON object [fields]. *)
Definition json_request (fields : list (string * jsval)) : Request :=
  {| req_body := Json (JObj fields) |}.

Definition env_with_key : Env := {| GEMINI_API_KEY := Some "test-key" |}.
Definition env_without_key : Env := {| GEMINI_API_KEY := None |}.

Definition echo_provider : Provider :=
  fun p => match p with JStr s => PText ("echo: " ++ s) | _ => PText "" end.

(** A client state whose prompt is [p], with a previous result [r] and
    error [e]. *)
Definition state_with (p : string) (r : option jsval) (e : option FormError) : State :=
  {| prompt := p; type := GText; result := r; loading := false; error := e |}.

Definition fetch_returning (status : Z) (b : jsval) : Fetch := fun _ => FResp status (Json b).
Definition fetch_failing : Fetch := fun _ => FThrow (ErrObj "Failed to fetch").

(** ** Rendering of [Home] *)

(** The result section: [result.type === 'text'] shows [result.content] as
    prose, anything else an [<img>] with a base64 PNG data URI.  [RThrows]
    is a section whose rendering throws (React then renders nothing of the
    page). *)
Inductive ResultView : Type :=
| RText (content : jsval)
| RImage (src : string)
| RThrows (e : exn).

(** React children: strings and numbers are rendered, booleans, [null] and
    [undefined] render nothing, arrays render their elements, and a plain
    object makes React throw. *)
Fixpoint react_child_ok (v : jsval) : bool :=
  match v with
  | JObj _ => false
  | JArr xs => forallb react_child_ok xs
  | _ => true
  end.

Definition react_child_error : exn := ErrObj "Objects are not valid as a React child".

(** What the rendered page shows: the alert region, the result section, the
    echo line under the input, and the [disabled] flags of the submit
    button and of the input and select. *)
Record View := {
  error_region : option string;
  result_view : option ResultView;
  echo : option string;
  submit_disabled : bool;
  inputs_disabled : bool
}.

(** The JSX of [Home].  A stored result is always an object (it passed the
    [data.type] / [data.content] checks), so [prop_of] reads its fields. *)
Definition render (st : State) : View :=
  {| error_region := option_map message (error st);
     result_view :=
       match result st with
       | None => None
       | Some d =>
           Some (if strict_eq_str (prop_of d "type") "text"
                 then (if react_child_ok (prop_of d "content")
                       then RText (prop_of d "content")
                       else RThrows react_child_error)
                 else match to_string (prop_of d "content") with
                      | inr c => RImage ("data:image/png;base64," ++ c)
                      | inl e => RThrows e
                      end)
       end;
     echo :=
       if String.eqb (prompt st) "" then None
       else Some (substring 0 50 (prompt st)
                  ++ (if Nat.ltb 50 (String.length (prompt st)) then "..." else ""));
     submit_disabled := loading st || negb (isFormValid st);
     inputs_disabled := loading st |}.

(** The client talking to the endpoint: [JSON.stringify({ prompt, type })]
    is read back by [req.json()] as an object with those two string
    fields, and the [NextResponse.json] body is what [response.json()]
    yields. *)
Definition fetch_via_POST (env : Env) (prov : Provider) : Fetch :=
  fun rq =>
    let resp := snd (POST env prov (json_request [("prompt", JStr (fst rq));
                                                  ("type", JStr (snd rq))])) in
    FResp (status resp) (Json (body resp)).


Example POST_text_example :
  POST env_with_key echo_provider
       (json_request [("prompt", JStr "A haunted castle"); ("type", JStr "text")])
  = ([JStr "A haunted castle"], text_response "echo: A haunted castle").
Proof. reflexivity. Qed.

Example POST_image_example :
  POST env_with_key echo_provider
       (json_request [("prompt", JStr "x"); ("type", JStr "image")])
  = ([], image_unsupported).
Proof. reflexivity. Qed.

(** ** Server lemmas *)

(** Every branch of [submit_try] records exactly the one request. *)
Ltac submit_try_reqs :=
  unfold submit_try, call_fetch, bind, lift, ret, throw, get_prop,
    response_json, response_json_or_empty; simpl;
  repeat (match goal with
          | |- context [match ?x with _ => _ end] =>
              match x with
              | context [match _ with _ => _ end] => fail 1
              | _ => destruct x
              end
          end; simpl);
  reflexivity.

Lemma bind_ret {C A B} (a : A) (f : A -> M C B) : bind (ret a) f = f a.
Proof. unfold bind, ret; simpl. destruct (f a); reflexivity. Qed.

Lemma get_prop_nonnull {C} (v : jsval) (k : string) :
  v <> JNull -> v <> JUndefined -> get_prop (C:=C) v k = ret (prop_of v k).
Proof.
  intros Hn Hu; destruct v; simpl; try congruence; try reflexivity.
  destruct (obj_lookup fields k); reflexivity.
Qed.

Lemma destructure_nonnull (v : jsval) :
  v <> JNull -> v <> JUndefined ->
  destructure v = ret (prop_of v "prompt", prop_of v "type").
Proof.
  intros Hn Hu.
  assert (Hd : destructure v =
               (p <- get_prop v "prompt" ;; t <- get_prop v "type" ;; ret (p, t))).
  { destruct v; congruence || reflexivity. }
  rewrite Hd, !get_prop_nonnull by assumption.
  rewrite !bind_ret; reflexivity.
Qed.

Lemma prop_of_defined (v : jsval) (k : string) :
  prop_of v k <> JUndefined -> v <> JNull /\ v <> JUndefined.
Proof. destruct v; simpl; intuition congruence. Qed.

(** The whole run on a parsed, non-null body with the credential set. *)
Lemma POST_parsed (env : Env) (prov : Provider) (req : Request) (v : jsval) :
  key_present env = true -> req_body req = Json v ->
  v <> JNull -> v <> JUndefined ->
  POST env prov req =
  let prompt := prop_of v "prompt" in
  let type := prop_of v "type" in
  if negb (truthy prompt) || negb (truthy type)
     || negb (includes_str ["text"; "image"] type)
  then ([], validation_error)
  else if strict_eq_str type "text" then
    ([prompt], match prov prompt with
               | PText t => text_response t
               | PThrow e => json_response (err_body (catch_message e)) 500
               end)
  else ([], image_unsupported).
Proof.
  intros Hk Hb Hn Hu.
  unfold POST, POST_try. rewrite Hk; simpl negb; cbv iota beta.
  unfold req_json; rewrite Hb, bind_ret, destructure_nonnull by assumption.
  rewrite bind_ret; cbv zeta.
  unfold includes_str; simpl existsb.
  destruct (truthy (prop_of v "prompt")), (truthy (prop_of v "type")),
    (strict_eq_str (prop_of v "type") "text"),
    (strict_eq_str (prop_of v "type") "image"); simpl; try reflexivity;
  unfold call_provider, bind, ret; destruct (prov (prop_of v "prompt")); reflexivity.
Qed.

(** The run on a body whose [type] is ["text"] and whose [prompt] is truthy. *)
Lemma POST_valid_text (env : Env) (prov : Provider) (req : Request) (v : jsval) :
  key_present env = true -> req_body req = Json v ->
  truthy (prop_of v "prompt") = true -> prop_of v "type" = JStr "text" ->
  POST env prov req =
  ([prop_of v "prompt"],
   match prov (prop_of v "prompt") with
   | PText t => text_response t
   | PThrow e => json_response (err_body (catch_message e)) 500
   end).
Proof.
  intros Hk Hb Hp Ht.
  destruct (prop_of_defined v "type") as [Hn Hu]; [rewrite Ht; discriminate|].
  rewrite (POST_parsed env prov req v Hk Hb Hn Hu); cbv zeta.
  rewrite Hp, Ht; reflexivity.
Qed.

Lemma POST_no_key (env : Env) (prov : Provider) (req : Request) :
  key_present env = false -> POST env prov req = ([], config_error).
Proof. intros Hk; unfold POST, POST_try; rewrite Hk; reflexivity. Qed.

Example trim_example : trim " 	 a b  " = "a b".
Proof. reflexivity. Qed.

Example Z_to_string_example : Z_to_string 503 = "503" /\ Z_to_string (-20) = "-20" /\ Z_to_string 0 = "0".
Proof. repeat split; reflexivity. Qed.

Example handleSubmit_error_example :
  let st := setPrompt "boom?" initial_state in
  handleSubmit (fun _ => FResp 500 (Json (JObj [("error", JStr "boom")]))) st
  = (setLoading false (setError (Some {| message := "boom" |})
       (setResult None (setError None (setLoading true st)))),
     [("boom?", "text")], [ToastError "Ritual Failed" "boom"]).
Proof. reflexivity. Qed.

Example handleSubmit_status_example :
  match handleSubmit (fun _ => FResp 503 (NotJson "Unexpected token")) (setPrompt "x" initial_state) with
  | (st, _, _) => error st
  end = Some {| message := "HTTP error! Status: 503" |}.
Proof. reflexivity. Qed.

(** ** Helper lemmas for the claims *)

Lemma truthy_str (p : string) : p <> "" -> truthy (JStr p) = true.
Proof. intros H; simpl; apply negb_true_iff, String.eqb_neq; exact H. Qed.

Lemma strict_eq_str_true (v : jsval) (s : string) :
  strict_eq_str v s = true -> v = JStr s.
Proof.
  destruct v; simpl; try discriminate.
  intros H; apply String.eqb_eq in H; subst; reflexivity.
Qed.

(** ** Claims about the endpoint *)

(** C1: a request with a non-empty string prompt and type ["text"], for
    which the provider returns [T]: with the credential configured the
    provider is called once with the prompt and the response is 200 with
    body [{ type: "text", content: T }]; without it the provider is never
    reached (so it never returns anything) and the configuration error is
    returned. *)
Theorem POST_text_success (env : Env) (prov : Provider) (req : Request)
  (v : jsval) (p T : string) :
  req_body req = Json v ->
  prop_of v "prompt" = JStr p -> p <> "" ->
  prop_of v "type" = JStr "text" ->
  prov (JStr p) = PText T ->
  POST env prov req =
  if key_present env then ([JStr p], text_response T) else ([], config_error).
Proof.
  intros Hb Hp Hne Ht Hprov.
  destruct (key_present env) eqn:Hk.
  - assert (Htr : truthy (prop_of v "prompt") = true)
      by (rewrite Hp; apply truthy_str; exact Hne).
    rewrite (POST_valid_text env prov req v Hk Hb Htr Ht).
    rewrite Hp, Hprov; reflexivity.
  - apply POST_no_key; exact Hk.
Qed.

(** C2 (counterexample): a request of type ["image"] with an empty prompt
    gets the 400 validation error, not 501. *)
Lemma POST_image_empty_prompt :
  let req := json_request [("prompt", JStr ""); ("type", JStr "image")] in
  prop_of (JObj [("prompt", JStr ""); ("type", JStr "image")]) "type" = JStr "image"
  /\ POST env_with_key echo_provider req = ([], validation_error)
  /\ status (snd (POST env_with_key echo_provider req)) = 400%Z.
Proof. repeat split; reflexivity. Qed.

(** C2 (amended): a request whose parsed body has type ["image"] never
    reaches the provider; the response is the configuration error when the
    credential is missing, else 501 with the fixed message when the prompt
    is truthy, else the 400 validation error. *)
Theorem POST_image_type (env : Env) (prov : Provider) (req : Request) (v : jsval) :
  req_body req = Json v ->
  prop_of v "type" = JStr "image" ->
  POST env prov req =
  ([], if negb (key_present env) then config_error
       else if truthy (prop_of v "prompt") then image_unsupported
       else validation_error).
Proof.
  intros Hb Ht.
  destruct (key_present env) eqn:Hk; simpl negb; cbv iota.
  - destruct (prop_of_defined v "type") as [Hn Hu]; [rewrite Ht; discriminate|].
    rewrite (POST_parsed env prov req v Hk Hb Hn Hu); cbv zeta.
    rewrite Ht; simpl.
    destruct (truthy (prop_of v "prompt")); reflexivity.
  - apply POST_no_key; exact Hk.
Qed.

(** C3: without the credential every request, whatever its body (also one
    that is not JSON), gets 500 with the fixed configuration message, and
    the provider is never called. *)
Theorem POST_missing_key (env : Env) (prov : Provider) (req : Request) :
  key_present env = false ->
  POST env prov req = ([], config_error)
  /\ config_error = json_response (err_body "Server configuration error: Missing API key") 500.
Proof. intros Hk; split; [apply POST_no_key; exact Hk | reflexivity]. Qed.

(** C4 (counterexample): an empty request body has neither a prompt nor a
    type, yet the answer is the 500 carrying the parser's message. *)
Lemma POST_empty_body_not_400 :
  POST env_with_key echo_provider {| req_body := NotJson "Unexpected end of JSON input" |}
  = ([], json_response (err_body "Unexpected end of JSON input") 500).
Proof. reflexivity. Qed.

(** C4 (amended): with the credential configured, a body that parses to a
    JSON value other than [null] and lacks [prompt], lacks [type], or has a
    [type] that is neither ["text"] nor ["image"] gets the 400 validation
    error, and the provider is never called; a body that is not JSON gets
    a 500 carrying the parser's message, and a JSON [null] body a 500
    carrying the destructuring [TypeError]'s message. *)
Theorem POST_validation_failure (env : Env) (prov : Provider) (req : Request) :
  key_present env = true ->
  (forall v : jsval,
     req_body req = Json v -> v <> JNull -> v <> JUndefined ->
     prop_of v "prompt" = JUndefined \/ prop_of v "type" = JUndefined
     \/ (prop_of v "type" <> JStr "text" /\ prop_of v "type" <> JStr "image") ->
     POST env prov req = ([], validation_error))
  /\ (forall m : string,
        req_body req = NotJson m ->
        POST env prov req = ([], json_response (err_body m) 500))
  /\ (req_body req = Json JNull ->
      POST env prov req
      = ([], json_response (err_body
               "Cannot destructure property 'prompt' of '(intermediate value)' as it is null.")
             500)).
Proof.
  intros Hk; split; [|split].
  - intros v Hb Hn Hu Hmiss.
    rewrite (POST_parsed env prov req v Hk Hb Hn Hu); cbv zeta.
    destruct Hmiss as [Hp | [Ht | [Ht1 Ht2]]].
    + rewrite Hp; reflexivity.
    + rewrite Ht; simpl; rewrite orb_true_r; reflexivity.
    + unfold includes_str; simpl existsb.
      destruct (strict_eq_str (prop_of v "type") "text") eqn:E1.
      { apply strict_eq_str_true in E1; contradiction. }
      destruct (strict_eq_str (prop_of v "type") "image") eqn:E2.
      { apply strict_eq_str_true in E2; contradiction. }
      rewrite !orb_true_r; reflexivity.
  - intros m Hb.
    unfold POST, POST_try; rewrite Hk; simpl negb; cbv iota.
    unfold req_json, bind; rewrite Hb; reflexivity.
  - intros Hb.
    unfold POST, POST_try; rewrite Hk; simpl negb; cbv iota.
    unfold req_json, bind; rewrite Hb; reflexivity.
Qed.

(** C6: with the credential configured and a body passing validation with
    type ["text"], every value thrown by the provider call is caught: the
    response is 500 whose [error] is the [Error]'s message, or
    ["Internal server error"] for a thrown non-[Error]. *)
Theorem POST_provider_exception (env : Env) (prov : Provider) (req : Request)
  (v : jsval) (e : exn) :
  key_present env = true ->
  req_body req = Json v ->
  truthy (prop_of v "prompt") = true ->
  prop_of v "type" = JStr "text" ->
  prov (prop_of v "prompt") = PThrow e ->
  POST env prov req =
  ([prop_of v "prompt"],
   json_response (err_body (match e with
                            | ErrObj m => m
                            | NonErr _ => "Internal server error"
                            end)) 500).
Proof.
  intros Hk Hb Hp Ht He.
  rewrite (POST_valid_text env prov req v Hk Hb Hp Ht), He; reflexivity.
Qed.

(** C10: with the credential configured, a body that is not JSON yields
    500 with the parser's message (not the 400 validation error), and the
    provider is never called. *)
Theorem POST_unparseable_body (env : Env) (prov : Provider) (req : Request) (m : string) :
  key_present env = true ->
  req_body req = NotJson m ->
  POST env prov req = ([], json_response (err_body m) 500).
Proof.
  intros Hk Hb; unfold POST, POST_try; rewrite Hk; simpl negb; cbv iota.
  unfold req_json; rewrite Hb; reflexivity.
Qed.

(** C5 (counterexample): the endpoint forwards a whitespace-only prompt of
    type ["text"] to the provider and answers 200. *)
Lemma POST_whitespace_prompt_forwarded :
  trim " " = ""
  /\ POST env_with_key echo_provider
          (json_request [("prompt", JStr " "); ("type", JStr "text")])
     = ([JStr " "], text_response "echo:  ").
Proof. split; reflexivity. Qed.

(** ** Claims about the client *)

Lemma isFormValid_false (st : State) :
  trim (prompt st) = "" -> isFormValid st = false.
Proof. intros H; unfold isFormValid; rewrite H; reflexivity. Qed.

(** C5 (amended): a prompt that is empty after trimming is rejected by the
    client form (validation error stored and notified, no request posted);
    the endpoint only rejects falsy prompts, so a non-empty prompt of
    spaces with type ["text"] that reaches it with the credential
    configured is forwarded to the provider. *)
Theorem whitespace_prompt_rejected_by_client (p : string) :
  trim p = "" ->
  (forall (fetch : Fetch) (st : State), prompt st = p ->
     handleSubmit fetch st =
     (setError (Some {| message := "A valid incantation and type are required." |}) st,
      [],
      [ToastError "Forbidden Incantation"
                  "Provide a proper prompt and select a creation type."]))
  /\ (p <> "" ->
      forall (env : Env) (prov : Provider) (req : Request) (v : jsval),
        key_present env = true -> req_body req = Json v ->
        prop_of v "prompt" = JStr p -> prop_of v "type" = JStr "text" ->
        fst (POST env prov req) = [JStr p]).
Proof.
  intros Htrim; split.
  - intros fetch st Hp; subst p.
    unfold handleSubmit; rewrite (isFormValid_false st Htrim); reflexivity.
  - intros Hne env prov req v Hk Hb Hp Ht.
    assert (Htr : truthy (prop_of v "prompt") = true)
      by (rewrite Hp; apply truthy_str; exact Hne).
    rewrite (POST_valid_text env prov req v Hk Hb Htr Ht), Hp; reflexivity.
Qed.

(** C7 (counterexample): the local validation rejection keeps the
    previous result. *)
Lemma handleSubmit_rejection_keeps_result :
  let st := state_with "" (Some (JObj [("type", JStr "text"); ("content", JStr "old")])) None in
  match handleSubmit fetch_failing st with
  | (st', reqs, _) =>
      reqs = [] /\ error st' <> None
      /\ result st' = Some (JObj [("type", JStr "text"); ("content", JStr "old")])
  end.
Proof. simpl; repeat split; congruence. Qed.

(** C7 (amended): the local validation rejection posts nothing, stores
    its error message and leaves the previous result and the loading flag
    as they were; on every failure of the request step (the fetch, the
    status check or the response body, all before [setResult]) the result
    is cleared to [None], the error message is stored and the loading flag
    ends [false]. *)
Theorem handleSubmit_failure_paths (fetch : Fetch) (st : State) :
  (isFormValid st = false ->
   match handleSubmit fetch st with
   | (st', reqs, _) =>
       reqs = []
       /\ error st' = Some {| message := "A valid incantation and type are required." |}
       /\ result st' = result st /\ loading st' = loading st
   end)
  /\ (forall e, isFormValid st = true ->
      snd (submit_try fetch (prompt st) (type st)) = inl e ->
      match handleSubmit fetch st with
      | (st', reqs, _) =>
          reqs = [(prompt st, type_name (type st))]
          /\ result st' = None
          /\ error st' = Some {| message := client_catch_message e |}
          /\ loading st' = false
      end).
Proof.
  split.
  - intros Hv; unfold handleSubmit; rewrite Hv; simpl.
    repeat split; reflexivity.
  - intros e Hv He; unfold handleSubmit; rewrite Hv; simpl negb; cbv iota.
    assert (Hreq : fst (submit_try fetch (prompt st) (type st))
                   = [(prompt st, type_name (type st))]).
    { submit_try_reqs. }
    destruct (submit_try fetch (prompt st) (type st)) as [reqs r].
    simpl in He, Hreq; subst r reqs.
    repeat split; reflexivity.
Qed.



(** C9 (counterexample): editing the prompt clears a stored error
    without any submission. *)
Lemma handlePromptChange_clears_error :
  error (state_with "x" None (Some {| message := "boom" |})) <> None
  /\ error (handlePromptChange "xy" (state_with "x" None (Some {| message := "boom" |}))) = None.
Proof. split; [discriminate | reflexivity]. Qed.

(** C9 (amended): a stored error stays until the next submission attempt,
    or until the user edits the prompt or changes the type: both change
    handlers clear it, and change nothing else besides the edited field. *)
Theorem change_handlers_clear_error (v : string) (t : GenerationType) (st : State) :
  handlePromptChange v st = setError None (setPrompt v st)
  /\ handleTypeChange t st = setError None (setType t st).
Proof.
  unfold handlePromptChange, handleTypeChange.
  destruct (error st) eqn:He; split; try reflexivity;
    destruct st; simpl in He; subst; reflexivity.
Qed.

(** ** Witnesses: the claims' theorems applied at concrete inputs *)

Lemma POST_text_success_witness :
  POST env_with_key echo_provider
       (json_request [("prompt", JStr "A haunted castle"); ("type", JStr "text")])
  = ([JStr "A haunted castle"], text_response "echo: A haunted castle").
Proof.
  exact (POST_text_success env_with_key echo_provider
           (json_request [("prompt", JStr "A haunted castle"); ("type", JStr "text")])
           (JObj [("prompt", JStr "A haunted castle"); ("type", JStr "text")])
           "A haunted castle" "echo: A haunted castle"
           eq_refl eq_refl ltac:(discriminate) eq_refl eq_refl).
Defined.

Lemma POST_image_type_witness :
  POST env_with_key echo_provider
       (json_request [("prompt", JStr "a vision"); ("type", JStr "image")])
  = ([], image_unsupported).
Proof.
  exact (POST_image_type env_with_key echo_provider
           (json_request [("prompt", JStr "a vision"); ("type", JStr "image")])
           (JObj [("prompt", JStr "a vision"); ("type", JStr "image")])
           eq_refl eq_refl).
Defined.

Lemma POST_missing_key_witness :
  POST env_without_key echo_provider {| req_body := NotJson "Unexpected token" |}
  = ([], config_error).
Proof.
  exact (proj1 (POST_missing_key env_without_key echo_provider
                  {| req_body := NotJson "Unexpected token" |} eq_refl)).
Defined.

Lemma POST_validation_failure_witness :
  POST env_with_key echo_provider (json_request [("prompt", JStr "x"); ("type", JStr "video")])
  = ([], validation_error)
  /\ POST env_with_key echo_provider {| req_body := NotJson "Unexpected end of JSON input" |}
     = ([], json_response (err_body "Unexpected end of JSON input") 500).
Proof.
  split.
  - apply (proj1 (POST_validation_failure env_with_key echo_provider
                    (json_request [("prompt", JStr "x"); ("type", JStr "video")]) eq_refl)
             (JObj [("prompt", JStr "x"); ("type", JStr "video")])).
    + reflexivity.
    + discriminate.
    + discriminate.
    + right; right; simpl; split; discriminate.
  - apply (proj1 (proj2 (POST_validation_failure env_with_key echo_provider
                           {| req_body := NotJson "Unexpected end of JSON input" |} eq_refl))).
    reflexivity.
Defined.

Lemma POST_provider_exception_witness :
  POST env_with_key (fun _ => PThrow (ErrObj "quota exceeded"))
       (json_request [("prompt", JStr "hi"); ("type", JStr "text")])
  = ([JStr "hi"], json_response (err_body "quota exceeded") 500).
Proof.
  exact (POST_provider_exception env_with_key (fun _ => PThrow (ErrObj "quota exceeded"))
           (json_request [("prompt", JStr "hi"); ("type", JStr "text")])
           (JObj [("prompt", JStr "hi"); ("type", JStr "text")])
           (ErrObj "quota exceeded") eq_refl eq_refl eq_refl eq_refl eq_refl).
Defined.

Lemma POST_unparseable_body_witness :
  POST env_with_key echo_provider {| req_body := NotJson "Unexpected token h in JSON" |}
  = ([], json_response (err_body "Unexpected token h in JSON") 500).
Proof.
  exact (POST_unparseable_body env_with_key echo_provider
           {| req_body := NotJson "Unexpected token h in JSON" |}
           "Unexpected token h in JSON" eq_refl eq_refl).
Defined.

Lemma whitespace_prompt_rejected_by_client_witness :
  handleSubmit fetch_failing (state_with "  " None None)
  = (setError (Some {| message := "A valid incantation and type are required." |})
              (state_with "  " None None),
     [],
     [ToastError "Forbidden Incantation"
                 "Provide a proper prompt and select a creation type."])
  /\ fst (POST env_with_key echo_provider
               (json_request [("prompt", JStr "  "); ("type", JStr "text")]))
     = [JStr "  "].
Proof.
  destruct (whitespace_prompt_rejected_by_client "  " eq_refl) as [Hc Hs].
  split.
  - apply Hc; reflexivity.
  - apply (Hs ltac:(discriminate) env_with_key echo_provider
             (json_request [("prompt", JStr "  "); ("type", JStr "text")])
             (JObj [("prompt", JStr "  "); ("type", JStr "text")]));
      reflexivity.
Defined.

Lemma handleSubmit_failure_paths_witness :
  match handleSubmit fetch_failing (state_with "" None None) with
  | (st', reqs, _) =>
      reqs = []
      /\ error st' = Some {| message := "A valid incantation and type are required." |}
      /\ result st' = None /\ loading st' = false
  end
  /\ match handleSubmit fetch_failing (state_with "hi" (Some (JStr "old")) None) with
     | (st', reqs, _) =>
         reqs = [("hi", "text")] /\ result st' = None
         /\ error st' = Some {| message := "Failed to fetch" |}
         /\ loading st' = false
     end.
Proof.
  split.
  - exact (proj1 (handleSubmit_failure_paths fetch_failing (state_with "" None None)) eq_refl).
  - exact (proj2 (handleSubmit_failure_paths fetch_failing (state_with "hi" (Some (JStr "old")) None))
             (ErrObj "Failed to fetch") eq_refl eq_refl).
Defined.


(** ** Further properties of the endpoint *)

(** Every run of [POST] ends in one of five shapes. *)
Lemma POST_shape (env : Env) (prov : Provider) (req : Request) :
  POST env prov req = ([], config_error)
  \/ (exists m, POST env prov req = ([], json_response (err_body m) 500))
  \/ POST env prov req = ([], validation_error)
  \/ POST env prov req = ([], image_unsupported)
  \/ exists v, req_body req = Json v /\ key_present env = true
       /\ truthy (prop_of v "prompt") = true /\ prop_of v "type" = JStr "text"
       /\ POST env prov req =
          ([prop_of v "prompt"],
           match prov (prop_of v "prompt") with
           | PText t => text_response t
           | PThrow e => json_response (err_body (catch_message e)) 500
           end).
Proof.
  destruct (key_present env) eqn:Hk; [|left; apply POST_no_key; exact Hk].
  destruct (req_body req) as [v | m] eqn:Hb.
  - assert (Hv : v = JNull \/ v = JUndefined \/ (v <> JNull /\ v <> JUndefined))
      by (destruct v; auto; right; right; split; discriminate).
    destruct Hv as [Hv | [Hv | [Hn Hu]]].
    + right; left; subst v; eexists.
      unfold POST, POST_try; rewrite Hk; simpl negb; cbv iota.
      unfold req_json; rewrite Hb; reflexivity.
    + right; left; subst v; eexists.
      unfold POST, POST_try; rewrite Hk; simpl negb; cbv iota.
      unfold req_json; rewrite Hb; reflexivity.
    + rewrite (POST_parsed env prov req v Hk Hb Hn Hu); cbv zeta.
      unfold includes_str; simpl existsb.
      destruct (truthy (prop_of v "prompt")) eqn:Hp; simpl;
        [| right; right; left; reflexivity].
      destruct (truthy (prop_of v "type")) eqn:Ht; simpl;
        [| right; right; left; reflexivity].
      destruct (strict_eq_str (prop_of v "type") "text") eqn:E1; simpl.
      * right; right; right; right; exists v.
        apply strict_eq_str_true in E1.
        repeat split; auto.
      * destruct (strict_eq_str (prop_of v "type") "image"); simpl;
          [right; right; right; left | right; right; left]; reflexivity.
  - right; left; exists m.
    unfold POST, POST_try; rewrite Hk; simpl negb; cbv iota.
    unfold req_json; rewrite Hb; reflexivity.
Qed.

(** The endpoint answers only with status 200, 400, 500 or 501. *)
Theorem POST_status_range (env : Env) (prov : Provider) (req : Request) :
  In (status (snd (POST env prov req))) [200; 400; 500; 501]%Z.
Proof.
  destruct (POST_shape env prov req)
    as [H | [[m H] | [H | [H | [v [_ [_ [_ [_ H]]]]]]]]]; rewrite H; simpl; auto.
  destruct (prov (prop_of v "prompt")); simpl; auto.
Qed.

(** The provider is called at most once per request, and only with the
    request's own [prompt] value, unchanged: when the credential is set and
    the body has a truthy prompt and type ["text"]. *)
Theorem POST_provider_calls (env : Env) (prov : Provider) (req : Request) :
  fst (POST env prov req) = []
  \/ exists v, req_body req = Json v /\ key_present env = true
       /\ truthy (prop_of v "prompt") = true /\ prop_of v "type" = JStr "text"
       /\ fst (POST env prov req) = [prop_of v "prompt"].
Proof.
  destruct (POST_shape env prov req)
    as [H | [[m H] | [H | [H | [v [Hb [Hk [Hp [Ht H]]]]]]]]];
    try (left; rewrite H; reflexivity).
  right; exists v; repeat split; auto; rewrite H; reflexivity.
Qed.

(** A 200 answer is always the provider's text for the request's prompt,
    as [{ type: "text", content }]. *)
Theorem POST_status_200 (env : Env) (prov : Provider) (req : Request) :
  status (snd (POST env prov req)) = 200%Z ->
  exists v t, req_body req = Json v /\ key_present env = true
    /\ prop_of v "type" = JStr "text"
    /\ prov (prop_of v "prompt") = PText t
    /\ snd (POST env prov req) = text_response t.
Proof.
  intros H200.
  destruct (POST_shape env prov req)
    as [H | [[m H] | [H | [H | [v [Hb [Hk [Hp [Ht H]]]]]]]]];
    rewrite H in H200 |- *; simpl in H200; try discriminate.
  destruct (prov (prop_of v "prompt")) as [t | e] eqn:He; simpl in H200; [|discriminate].
  exists v, t; repeat split; auto.
Qed.

(** ** Further properties of the client *)








Lemma submit_try_requests (fetch : Fetch) (p : string) (t : GenerationType) :
  fst (submit_try fetch p t) = [(p, type_name t)].
Proof.
  submit_try_reqs.
Qed.

(** A submission posts exactly one request, [{ prompt, type }] of the
    current state, when the form is valid and none otherwise, and never
    changes the prompt or the selected type. *)
Lemma handleSubmit_fields (fetch : Fetch) (st : State) :
  match handleSubmit fetch st with
  | (st', reqs, _) =>
      reqs = (if isFormValid st then [(prompt st, type_name (type st))] else [])
      /\ prompt st' = prompt st /\ type st' = type st
  end.
Proof.
  unfold handleSubmit; destruct (isFormValid st); simpl; [|repeat split].
  pose proof (submit_try_requests fetch (prompt st) (type st)) as Hr.
  destruct (submit_try fetch (prompt st) (type st)) as [reqs r]; simpl in Hr; subst reqs.
  destruct r as [e | [data ty]]; simpl; [repeat split|].
  destruct (to_string ty); simpl; repeat split.
Qed.



(** When [fetch] itself throws (network failure, the 30 s timeout), the
    submission fails with that [Error]'s message, or "The abyss rejected
    your request." for a non-[Error]. *)
Theorem handleSubmit_fetch_throws (fetch : Fetch) (st : State) (e : exn) :
  isFormValid st = true ->
  fetch (prompt st, type_name (type st)) = FThrow e ->
  match handleSubmit fetch st with
  | (st', _, _) =>
      loading st' = false /\ result st' = None
      /\ error st' = Some {| message := match e with
                                       | ErrObj m => m
                                       | NonErr _ => "The abyss rejected your request."
                                       end |}
  end.
Proof.
  intros Hv Hf.
  unfold handleSubmit; rewrite Hv; simpl negb; cbv iota.
  unfold submit_try, call_fetch, bind; rewrite Hf; simpl.
  repeat split.
Qed.

Lemma substring_all (n : nat) (s : string) :
  String.length s <= n -> substring 0 n s = s.
Proof.
  revert n; induction s as [|c r IH]; intros n H; destruct n; simpl in *;
    try reflexivity; try lia.
  rewrite IH by lia; reflexivity.
Qed.

Lemma substring_length (n : nat) (s : string) :
  String.length (substring 0 n s) = Nat.min n (String.length s).
Proof.
  revert n; induction s as [|c r IH]; intros n; destruct n; simpl; try reflexivity.
  rewrite IH; reflexivity.
Qed.

Lemma append_empty_r (a : string) : a ++ "" = a.
Proof. induction a as [|c r IH]; simpl; [reflexivity | rewrite IH; reflexivity]. Qed.

Lemma length_append (a b : string) :
  String.length (a ++ b) = String.length a + String.length b.
Proof. induction a as [|c r IH]; simpl; [reflexivity | rewrite IH; reflexivity]. Qed.

(** The echo line under the input: absent for an empty prompt, the prompt
    itself up to 50 characters, else its first 50 characters followed by
    "..."; it is never longer than 53 characters. *)
Theorem render_echo (st : State) :
  echo (render st)
  = (if String.eqb (prompt st) "" then None
     else Some (if Nat.leb (String.length (prompt st)) 50 then prompt st
                else substring 0 50 (prompt st) ++ "..."))
  /\ forall e, echo (render st) = Some e -> String.length e <= 53.
Proof.
  assert (Hecho : echo (render st)
    = (if String.eqb (prompt st) "" then None
       else Some (if Nat.leb (String.length (prompt st)) 50 then prompt st
                  else substring 0 50 (prompt st) ++ "..."))).
  { simpl. destruct (String.eqb (prompt st) ""); [reflexivity|].
    destruct (Nat.leb (String.length (prompt st)) 50) eqn:E.
    - apply Nat.leb_le in E.
      assert (E' : Nat.ltb 50 (String.length (prompt st)) = false)
        by (apply Nat.ltb_ge; exact E).
      rewrite E', substring_all by exact E.
      rewrite append_empty_r; reflexivity.
    - apply Nat.leb_gt in E.
      assert (E' : Nat.ltb 50 (String.length (prompt st)) = true)
        by (apply Nat.ltb_lt; exact E).
      rewrite E'; reflexivity. }
  split; [exact Hecho|].
  intros e He; rewrite Hecho in He.
  destruct (String.eqb (prompt st) ""); [discriminate|].
  injection He as <-.
  destruct (Nat.leb (String.length (prompt st)) 50) eqn:E.
  - apply Nat.leb_le in E; lia.
  - rewrite length_append, substring_length.
    change (String.length "...") with 3.
    pose proof (Nat.le_min_l 50 (String.length (prompt st))); lia.
Qed.


(** On a 2xx object body whose [type] and [content] are non-empty strings,
    no error region is shown and the result section shows [content] as
    prose when [type] is ["text"] and, for any other type, an image whose
    source is the base64 PNG data URI of [content]. *)
Theorem render_success_result (fetch : Fetch) (st : State) (s : Z)
  (fs : list (string * jsval)) (t c : string) :
  isFormValid st = true ->
  fetch (prompt st, type_name (type st)) = FResp s (Json (JObj fs)) ->
  response_ok s = true ->
  prop_of (JObj fs) "type" = JStr t -> t <> "" ->
  prop_of (JObj fs) "content" = JStr c -> c <> "" ->
  match handleSubmit fetch st with
  | (st', _, _) =>
      error_region (render st') = None
      /\ result_view (render st')
         = Some (if String.eqb t "text" then RText (JStr c)
                 else RImage ("data:image/png;base64," ++ c))
  end.
Proof.
  intros Hv Hf Hok Hty Ht Hc Hcn.
  apply String.eqb_neq in Ht; apply String.eqb_neq in Hcn.
  unfold handleSubmit; rewrite Hv; simpl negb; cbv iota.
  unfold submit_try, call_fetch, bind; rewrite Hf; simpl.
  rewrite Hok; simpl.
  unfold prop_of in Hty, Hc |- *.
  destruct (obj_lookup fs "type") as [w|] eqn:Ew; [|discriminate].
  destruct (obj_lookup fs "content") as [w'|] eqn:Ew'; [|discriminate].
  subst w w'; simpl. rewrite Ht, Hcn; simpl. rewrite Ew, Ew'; simpl.
  split; [reflexivity|].
  unfold strict_eq_str; destruct (String.eqb t "text"); reflexivity.
Qed.

(** ** The client against the endpoint *)

Lemma isFormValid_prompt_nonempty (st : State) :
  isFormValid st = true -> prompt st <> "".
Proof. intros Hv Hp; unfold isFormValid in Hv; rewrite Hp in Hv; discriminate. Qed.



(** End to end, type "image": with the credential configured, a valid
    submission fails with "Image generation not supported in this
    version" and stores no result. *)
Theorem end_to_end_image (env : Env) (prov : Provider) (st : State) :
  key_present env = true -> isFormValid st = true -> type st = GImage ->
  match handleSubmit (fetch_via_POST env prov) st with
  | (st', _, _) =>
      result st' = None
      /\ error st' = Some {| message := "Image generation not supported in this version" |}
  end.
Proof.
  intros Hk Hv Ht.
  assert (Hp : String.eqb (prompt st) "" = false)
    by (apply String.eqb_neq, isFormValid_prompt_nonempty; exact Hv).
  pose proof (Hpost := POST_parsed env prov
                (json_request [("prompt", JStr (prompt st)); ("type", JStr "image")])
                (JObj [("prompt", JStr (prompt st)); ("type", JStr "image")])
                Hk eq_refl ltac:(discriminate) ltac:(discriminate)).
  unfold handleSubmit; rewrite Hv; simpl negb; cbv iota.
  unfold submit_try, call_fetch, bind; rewrite Ht.
  unfold fetch_via_POST; simpl fst; simpl snd; simpl type_name.
  rewrite Hpost; simpl; rewrite Hp; simpl.
  split; reflexivity.
Qed.

(** End to end, missing credential: every valid submission fails with the
    server's "Server configuration error: Missing API key". *)
Theorem end_to_end_no_key (env : Env) (prov : Provider) (st : State) :
  key_present env = false -> isFormValid st = true ->
  match handleSubmit (fetch_via_POST env prov) st with
  | (st', _, _) =>
      result st' = None
      /\ error st' = Some {| message := "Server configuration error: Missing API key" |}
  end.
Proof.
  intros Hk Hv.
  unfold handleSubmit; rewrite Hv; simpl negb; cbv iota.
  unfold submit_try, call_fetch, bind.
  unfold fetch_via_POST; simpl fst; simpl snd.
  rewrite POST_no_key by exact Hk; simpl.
  split; reflexivity.
Qed.


(** A submission posts exactly one request, [{ prompt, type }] of the
    current state, when the form is valid and none otherwise, and never
    changes the prompt or the selected type. *)
Theorem handleSubmit_requests (fetch : Fetch) (st : State) :
  match handleSubmit fetch st with
  | (st', reqs, _) =>
      reqs = (if isFormValid st then [(prompt st, type_name (type st))] else [])
      /\ prompt st' = prompt st /\ type st' = type st
  end.
Proof. exact (handleSubmit_fields fetch st). Qed.


(** ** Witnesses of the further properties *)

Lemma POST_status_200_witness :
  exists v t, req_body (json_request [("prompt", JStr "hi"); ("type", JStr "text")]) = Json v
    /\ key_present env_with_key = true /\ prop_of v "type" = JStr "text"
    /\ echo_provider (prop_of v "prompt") = PText t
    /\ snd (POST env_with_key echo_provider
                 (json_request [("prompt", JStr "hi"); ("type", JStr "text")]))
       = text_response t.
Proof.
  apply (POST_status_200 env_with_key echo_provider
           (json_request [("prompt", JStr "hi"); ("type", JStr "text")])).
  reflexivity.
Defined.



Lemma handleSubmit_fetch_throws_witness :
  match handleSubmit (fun _ => FThrow (ErrObj "signal timed out")) (state_with "hi" None None) with
  | (st', _, _) =>
      loading st' = false /\ result st' = None
      /\ error st' = Some {| message := "signal timed out" |}
  end.
Proof.
  exact (handleSubmit_fetch_throws (fun _ => FThrow (ErrObj "signal timed out"))
           (state_with "hi" None None) (ErrObj "signal timed out") eq_refl eq_refl).
Defined.

Lemma render_echo_witness :
  echo (render (state_with "A haunted castle under a blood moon, with ravens circling" None None))
  = Some "A haunted castle under a blood moon, with ravens c..."
  /\ String.length "A haunted castle under a blood moon, with ravens c..." <= 53.
Proof.
  destruct (render_echo (state_with "A haunted castle under a blood moon, with ravens circling"
                          None None)) as [H1 H2].
  split.
  - rewrite H1; reflexivity.
  - apply H2; reflexivity.
Defined.


Lemma render_success_result_witness :
  match handleSubmit (fetch_returning 200 (JObj [("type", JStr "image"); ("content", JStr "iVBOR")]))
                     (state_with "a vision" None None) with
  | (st', _, _) =>
      error_region (render st') = None
      /\ result_view (render st') = Some (RImage "data:image/png;base64,iVBOR")
  end.
Proof.
  exact (render_success_result
           (fetch_returning 200 (JObj [("type", JStr "image"); ("content", JStr "iVBOR")]))
           (state_with "a vision" None None) 200
           [("type", JStr "image"); ("content", JStr "iVBOR")] "image" "iVBOR"
           eq_refl eq_refl eq_refl eq_refl ltac:(discriminate) eq_refl ltac:(discriminate)).
Defined.


Lemma end_to_end_image_witness :
  match handleSubmit (fetch_via_POST env_with_key echo_provider)
                     {| prompt := "a vision"; type := GImage; result := None;
                        loading := false; error := None |} with
  | (st', _, _) =>
      result st' = None
      /\ error st' = Some {| message := "Image generation not supported in this version" |}
  end.
Proof.
  exact (end_to_end_image env_with_key echo_provider
           {| prompt := "a vision"; type := GImage; result := None;
              loading := false; error := None |} eq_refl eq_refl eq_refl).
Defined.

Lemma end_to_end_no_key_witness :
  match handleSubmit (fetch_via_POST env_without_key echo_provider)
                     (state_with "hi" None None) with
  | (st', _, _) =>
      result st' = None
      /\ error st' = Some {| message := "Server configuration error: Missing API key" |}
  end.
Proof.
  exact (end_to_end_no_key env_without_key echo_provider (state_with "hi" None None)
           eq_refl eq_refl).
Defined.

